(** * ChatbotConfigurationTableRow: the max-tokens input of a table row

    A shallow embedding of the validation logic of
    [packages/gen-ai/frontend/src/app/Chatbot/components/chatbotConfiguration/ChatbotConfigurationTableRow.tsx]:
    the three [React.useState] cells of the max-tokens field, the
    [React.useEffect] that mirrors the [maxTokens] prop into the field, and
    the [handleMaxTokensChange] callback, together with the two JavaScript
    built-ins they rely on, [parseInt] and [Number.prototype.toString]. *)

From Stdlib Require Import ZArith NArith List String Ascii Bool Lia.
Import ListNotations.
Local Open Scope Z_scope.

(** ** JavaScript strings *)

Module JS.

(** A JavaScript string is a sequence of UTF-16 code units. *)
Definition code_unit := N.
Definition jsstring := list code_unit.

(** An ASCII literal of the source, as a JavaScript string. *)
Fixpoint lit (s : string) : jsstring :=
  match s with
  | EmptyString => []
  | String a s' => N_of_ascii a :: lit s'
  end.

(** [a === b] on strings. *)
Fixpoint str_eqb (a b : jsstring) : bool :=
  match a, b with
  | [], [] => true
  | x :: a', y :: b' => (x =? y)%N && str_eqb a' b'
  | _, _ => false
  end.

(** ToBoolean on a string: only the empty string is falsy. *)
Definition truthy (s : jsstring) : bool :=
  match s with [] => false | _ :: _ => true end.

(** [x || d] where [x : string | undefined] and [d : string]. *)
Definition or_else (x : option jsstring) (d : jsstring) : jsstring :=
  match x with
  | Some s => if truthy s then s else d
  | None => d
  end.

(** ** Numbers

    The component only ever compares a parsed number with 128 and 128000 and
    hands numbers in that range to its parent.  Numbers are therefore
    modelled as NaN or an exact integer: rounding an integer to a double is
    monotone and is the identity up to 2^53, so every comparison with 128 or
    128000 and every value in between is the same on doubles as on [Z]
    (an overflow to Infinity is still above 128000, and -0 is 0). *)
Inductive number : Type :=
  | NaN
  | Num (z : Z).

Definition Number_isNaN (x : number) : bool :=
  match x with NaN => true | Num _ => false end.

(** [x < y] and [x > y]: false as soon as one side is NaN. *)
Definition lt (x y : number) : bool :=
  match x, y with
  | Num a, Num b => a <? b
  | _, _ => false
  end.

Definition gt (x y : number) : bool := lt y x.

(** Object.is on [number | undefined], the comparison React applies to a
    dependency array (NaN is the same value as NaN). *)
Definition same_value (x y : option number) : bool :=
  match x, y with
  | None, None => true
  | Some NaN, Some NaN => true
  | Some (Num a), Some (Num b) => a =? b
  | _, _ => false
  end.

(** ** parseInt(string, radix) (ECMAScript 19.2.5) *)

(** StrWhiteSpaceChar: WhiteSpace (TAB, VT, FF, ZWNBSP and the space
    separators) and LineTerminator (LF, CR, LS, PS). *)
Definition is_white_space (c : code_unit) : bool :=
  ((c =? 9) || (c =? 10) || (c =? 11) || (c =? 12) || (c =? 13) || (c =? 32)
   || (c =? 160) || (c =? 5760)
   || ((8192 <=? c) && (c <=? 8202))
   || (c =? 8232) || (c =? 8233) || (c =? 8239) || (c =? 8287)
   || (c =? 12288) || (c =? 65279))%N.

Fixpoint trim_start (s : jsstring) : jsstring :=
  match s with
  | c :: s' => if is_white_space c then trim_start s' else s
  | [] => []
  end.

(** The value of a code unit as a digit: 0-9, then a-z or A-Z for 10-35. *)
Definition digit_value (c : code_unit) : option Z :=
  if ((48 <=? c) && (c <=? 57))%N then Some (Z.of_N c - 48)
  else if ((97 <=? c) && (c <=? 122))%N then Some (Z.of_N c - 87)
  else if ((65 <=? c) && (c <=? 90))%N then Some (Z.of_N c - 55)
  else None.

(** The digit values of the longest prefix of [s] made of radix-[R] digits. *)
Fixpoint radix_prefix (R : Z) (s : jsstring) : list Z :=
  match s with
  | c :: s' =>
      match digit_value c with
      | Some d => if d <? R then d :: radix_prefix R s' else []
      | None => []
      end
  | [] => []
  end.

(** The integer a digit sequence denotes in radix [R]. *)
Definition mathInt (R : Z) (ds : list Z) : Z :=
  fold_left (fun a d => a * R + d) ds 0.

Definition starts_with_0x (s : jsstring) : bool :=
  match s with
  | 48%N :: x :: _ => ((x =? 120) || (x =? 88))%N
  | _ => false
  end.

Definition parseInt (string : jsstring) (radix : Z) : number :=
  let inputS := trim_start string in
  let sign := match inputS with 45%N :: _ => -1 | _ => 1 end in
  let inputS := match inputS with
                | 43%N :: rest => rest
                | 45%N :: rest => rest
                | _ => inputS
                end in
  if (radix =? 0) || ((2 <=? radix) && (radix <=? 36)) then
    let stripPrefix := (radix =? 0) || (radix =? 16) in
    let R := if radix =? 0 then 10 else radix in
    let R := if stripPrefix && starts_with_0x inputS then 16 else R in
    let inputS := if stripPrefix && starts_with_0x inputS
                  then skipn 2 inputS else inputS in
    match radix_prefix R inputS with
    | [] => NaN
    | ds => Num (sign * mathInt R ds)
    end
  else NaN.

(** ** Number.prototype.toString()

    For NaN the text is "NaN"; for an integer it is an optional minus sign
    and the decimal digits without leading zeros (the form JavaScript prints
    below 10^21, which covers every value this component handles). *)

Definition digit_char (d : Z) : code_unit := Z.to_N (48 + d).

(** Digits of [n], most significant first, pushed in front of [acc];
    [fuel] bounds the number of further digits. *)
Fixpoint digits_from (fuel : nat) (n : Z) (acc : jsstring) : jsstring :=
  let acc' := digit_char (n mod 10) :: acc in
  match fuel with
  | O => acc'
  | S fuel' => if n <? 10 then acc' else digits_from fuel' (n / 10) acc'
  end.

Definition digits (n : Z) : jsstring :=
  digits_from (Z.to_nat (Z.log2 n)) n [].

Definition toString (x : number) : jsstring :=
  match x with
  | NaN => lit "NaN"
  | Num z => if z <? 0 then 45%N :: digits (- z) else digits z
  end.

End JS.

Import JS.

(** ** The component *)

(** The [validated] variants of the PatternFly form controls: the string
    literals 'default', 'success', 'warning' and 'error'. *)
Inductive ValidatedOptions : Type :=
  | Default
  | Success
  | Warning
  | Error.

(** The three [React.useState] cells of the row. *)
Record State : Type := mkState {
  maxTokensValue : jsstring;
  maxTokensValidated : ValidatedOptions;
  maxTokensHelperText : jsstring
}.

(** The argument of one call of the [onMaxTokensChange] prop
    ([number | undefined]). *)
Definition Notification := option number.

(** Code of the component reads nothing back from its state cells: it
    writes them and calls the parent.  A computation maps the cells to a
    result, the new cells and the calls made, oldest first. *)
Definition Eff (A : Type) : Type := State -> A * State * list Notification.

Definition ret {A} (a : A) : Eff A := fun st => (a, st, []).

Definition bind {A B} (m : Eff A) (k : A -> Eff B) : Eff B :=
  fun st =>
    let '(a, st1, out1) := m st in
    let '(b, st2, out2) := k a st1 in
    (b, st2, out1 ++ out2).

Notation "m ;; k" := (bind m (fun _ => k))
  (at level 61, right associativity).

Definition setMaxTokensValue (v : jsstring) : Eff unit :=
  fun st => (tt, mkState v (maxTokensValidated st) (maxTokensHelperText st), []).

Definition setMaxTokensValidated (v : ValidatedOptions) : Eff unit :=
  fun st => (tt, mkState (maxTokensValue st) v (maxTokensHelperText st), []).

Definition setMaxTokensHelperText (v : jsstring) : Eff unit :=
  fun st => (tt, mkState (maxTokensValue st) (maxTokensValidated st) v, []).

Definition onMaxTokensChange (value : Notification) : Eff unit :=
  fun st => (tt, st, [value]).

(** The cells and the calls a computation leaves behind. *)
Definition exec {A} (m : Eff A) (st : State) : State * list Notification :=
  let '(_, st', out) := m st in (st', out).

(** [maxTokens?.toString() || ''] *)
Definition maxTokens_text (maxTokens : option number) : jsstring :=
  or_else (option_map toString maxTokens) (lit "").

(** The initial values handed to the three [React.useState] calls. *)
Definition useState_init (maxTokens : option number) : State :=
  mkState (maxTokens_text maxTokens) Default (lit "").

(** The body of the [React.useEffect] with dependency array [[maxTokens]]. *)
Definition syncEffect (maxTokens : option number) : Eff unit :=
  setMaxTokensValue (maxTokens_text maxTokens).

(** The React event object, which the handler ignores. *)
Definition FormEvent := unit.

(** Each [return;] of the source ends its branch here. *)
Definition handleMaxTokensChange (_event : FormEvent) (value : jsstring)
  : Eff unit :=
  setMaxTokensValue value ;;
  if str_eqb value (lit "") then
    setMaxTokensValidated Default ;;
    setMaxTokensHelperText (lit "") ;;
    onMaxTokensChange None
  else
    let numValue := parseInt value 10 in
    if Number_isNaN numValue then
      setMaxTokensValidated Error ;;
      setMaxTokensHelperText (lit "Must be a valid number")
    else if lt numValue (Num 128) then
      setMaxTokensValidated Error ;;
      setMaxTokensHelperText (lit "Minimum: 128")
    else if gt numValue (Num 128000) then
      setMaxTokensValidated Error ;;
      setMaxTokensHelperText (lit "Maximum: 128,000")
    else
      setMaxTokensValidated Success ;;
      setMaxTokensHelperText (lit "") ;;
      onMaxTokensChange (Some numValue).

(** ** A mounted row

    The [maxTokens] prop of the last render and the state cells.  The prop
    belongs to the parent: it is the committed value, and only a render
    with a new prop changes it. *)
Record Row : Type := mkRow {
  maxTokens : option number;
  cells : State
}.

(** First render, then the effect of the mount. *)
Definition mount (maxTokens0 : option number) : Row * list Notification :=
  let '(st, out) := exec (syncEffect maxTokens0) (useState_init maxTokens0) in
  (mkRow maxTokens0 st, out).

(** A later render with the prop [maxTokens']: the effect runs only when
    the dependency changed. *)
Definition rerender (maxTokens' : option number) (r : Row)
  : Row * list Notification :=
  if same_value (maxTokens r) maxTokens' then (mkRow maxTokens' (cells r), [])
  else
    let '(st, out) := exec (syncEffect maxTokens') (cells r) in
    (mkRow maxTokens' st, out).

(** A change event of the text input. *)
Definition change (value : jsstring) (r : Row) : Row * list Notification :=
  let '(st, out) := exec (handleMaxTokensChange tt value) (cells r) in
  (mkRow (maxTokens r) st, out).

(** The rows a user and a parent can bring about. *)
Inductive reachable : Row -> Prop :=
  | reach_mount m : reachable (fst (mount m))
  | reach_rerender m r : reachable r -> reachable (fst (rerender m r))
  | reach_change v r : reachable r -> reachable (fst (change v r)).

(** ** Rows used in the scenarios *)

(** A row mounted without a limit, and one mounted with the limit 4096. *)
Definition row_unset : Row := fst (mount None).
Definition row_4096 : Row := fst (mount (Some (Num 4096))).

(** The user types "8192" into a fresh row. *)
Definition row_typed_8192 : Row := fst (change (lit "8192") row_unset).

(** The user types "64" into a fresh row, then the parent renders the row
    with the limit 8192. *)
Definition row_synced_8192 : Row :=
  fst (rerender (Some (Num 8192)) (fst (change (lit "64") row_unset))).

(** ** Events of a mounted row

    What happens to a row after its mount: the user edits the text input or
    the parent renders the row again, one event after the other. *)
Inductive Event : Type :=
  | UserChange (value : jsstring)
  | ParentRender (maxTokens' : option number).

Definition step (e : Event) (r : Row) : Row * list Notification :=
  match e with
  | UserChange value => change value r
  | ParentRender maxTokens' => rerender maxTokens' r
  end.

(** The row after the events [es] and the calls of [onMaxTokensChange] they
    made, oldest first. *)
Fixpoint run (es : list Event) (r : Row) : Row * list Notification :=
  match es with
  | [] => (r, [])
  | e :: es' =>
      let '(r1, out1) := step e r in
      let '(r2, out2) := run es' r1 in
      (r2, out1 ++ out2)
  end.

(** ** The rendered row *)

(** The fields of [AIModel] the component reads. *)
Record AIModel : Type := mkAIModel {
  model_name : jsstring;
  display_name : jsstring;
  description : jsstring;
  status : jsstring;
  usecase : jsstring;
  isMaaSModel : bool
}.

(** The class [[^a-zA-Z0-9-]] matches every code unit this test rejects. *)
Definition is_testid_unit (c : code_unit) : bool :=
  (((97 <=? c) && (c <=? 122)) || ((65 <=? c) && (c <=? 90))
   || ((48 <=? c) && (c <=? 57)) || (c =? 45))%N.

(** [model.model_name.replace(/[^a-zA-Z0-9-]/g, '')]: without the [u] flag
    the pattern is matched against single code units, and every match is
    replaced by the empty string. *)
Definition sanitizedModelName (model : AIModel) : jsstring :=
  filter is_testid_unit (model_name model).

Record CheckboxTd : Type := mkCheckboxTd {
  checkbox_id : jsstring;
  checkbox_isChecked : bool;
  checkbox_isDisabled : bool;
  checkbox_testid : jsstring
}.

(** The display name, bare or wrapped in a [ResourceNameTooltip]. *)
Inductive TitleName : Type :=
  | BareName (name : jsstring)
  | ResourceNameTooltip (name : jsstring).

Inductive IconStatus : Type :=
  | IconSuccess
  | IconDanger.

Inductive IconGlyph : Type :=
  | CheckCircleIcon
  | ExclamationCircleIcon.

(** The [FormGroup] with its [TextInput]. *)
Record MaxTokensField : Type := mkMaxTokensField {
  group_fieldId : jsstring;
  group_helperText : jsstring;
  group_validated : ValidatedOptions;
  input_id : jsstring;
  input_value : jsstring;
  input_ariaLabel : jsstring;
  input_testid : jsstring;
  input_validated : ValidatedOptions
}.

(** The cells of the table row; [None] in the last one is the dash shown
    for a row that is not selected.  The fixed parts of the markup (column
    labels, the help popover, styles) and the callbacks wired to the
    checkbox and the input are left out; [isMaaSModel] stands for the
    truthiness the two conditionals test. *)
Record RowView : Type := mkRowView {
  view_checkbox : CheckboxTd;
  view_title : TitleName;
  view_maasLabel : bool;
  view_description : jsstring;
  view_statusIcon : IconStatus;
  view_statusGlyph : IconGlyph;
  view_usecase : jsstring;
  view_maxTokens : option MaxTokensField
}.

Definition render (model : AIModel) (isChecked : bool) (st : State) : RowView :=
  let running := str_eqb (status model) (lit "Running") in
  mkRowView
    (mkCheckboxTd (model_name model) isChecked (negb running)
       (sanitizedModelName model ++ lit "-checkbox"))
    (if isMaaSModel model then BareName (display_name model)
     else ResourceNameTooltip (display_name model))
    (isMaaSModel model)
    (description model)
    (if running then IconSuccess else IconDanger)
    (if running then CheckCircleIcon else ExclamationCircleIcon)
    (usecase model)
    (if isChecked then
       Some (mkMaxTokensField
               (lit "max-tokens-" ++ sanitizedModelName model)
               (maxTokensHelperText st)
               (maxTokensValidated st)
               (lit "max-tokens-" ++ sanitizedModelName model)
               (maxTokensValue st)
               (lit "Max tokens for " ++ display_name model)
               (sanitizedModelName model ++ lit "-max-tokens-input")
               (maxTokensValidated st))
     else None).

(** The strings of a view that are used as element ids or test ids and are
    built from the sanitized name. *)
Definition sanitized_ids (v : RowView) : list jsstring :=
  checkbox_testid (view_checkbox v) ::
  match view_maxTokens v with
  | Some f => [group_fieldId f; input_id f; input_testid f]
  | None => []
  end.

(** A decimal digit value. *)
Definition is_decimal (d : Z) : Prop := 0 <= d < 10.

(** A text made of white space only. *)
Definition all_white (ws : jsstring) : Prop :=
  Forall (fun c => is_white_space c = true) ws.

(** ** Decimal text and [parseInt] *)

Section Decimal.

(** Settles a goal about a decimal digit [d] by trying its ten values. *)
Ltac each_decimal d H :=
  let E := fresh "E" in
  assert (E : d = 0 \/ d = 1 \/ d = 2 \/ d = 3 \/ d = 4 \/
              d = 5 \/ d = 6 \/ d = 7 \/ d = 8 \/ d = 9)
    by (unfold is_decimal in H; lia);
  clear H;
  repeat (destruct E as [E | E]; [subst d; reflexivity |]);
  subst d; reflexivity.

Lemma digit_value_digit_char d :
  is_decimal d -> digit_value (digit_char d) = Some d.
Proof. intros H; each_decimal d H. Qed.

Lemma mathInt_snoc R ds d : mathInt R (ds ++ [d]) = mathInt R ds * R + d.
Proof. unfold mathInt; rewrite fold_left_app; reflexivity. Qed.

Lemma mathInt_nonneg ds : Forall is_decimal ds -> 0 <= mathInt 10 ds.
Proof.
  induction ds as [| d ds IH] using rev_ind; intros H.
  - cbn; lia.
  - rewrite mathInt_snoc. apply Forall_app in H as [H1 H2].
    inversion H2 as [| ? ? Hd _]; subst. unfold is_decimal in Hd.
    specialize (IH H1); lia.
Qed.

Lemma radix_prefix_decimal ds rest :
  Forall is_decimal ds ->
  radix_prefix 10 (map digit_char ds ++ rest) = ds ++ radix_prefix 10 rest.
Proof.
  induction 1 as [| d ds Hd _ IH]; [reflexivity |].
  cbn [map app radix_prefix].
  rewrite (digit_value_digit_char d Hd).
  destruct (Z.ltb_spec d 10) as [_ | Hge];
    [| unfold is_decimal in Hd; lia].
  now rewrite IH.
Qed.

(** The digits [digits_from] writes, given enough fuel for [n]. *)
Lemma digits_from_spec fuel :
  forall n acc,
    0 <= n < 2 ^ (Z.of_nat fuel + 1) ->
    exists ds,
      ds <> [] /\ Forall is_decimal ds /\ mathInt 10 ds = n /\
      digits_from fuel n acc = map digit_char ds ++ acc.
Proof.
  induction fuel as [| fuel IH]; intros n acc Hn.
  - exists [n]. change (2 ^ (Z.of_nat 0 + 1)) with 2 in Hn.
    assert (Hsmall : n mod 10 = n) by (apply Z.mod_small; lia).
    cbn [digits_from]. rewrite Hsmall.
    repeat split; try discriminate; try lia.
    + repeat constructor; lia.
  - cbn [digits_from].
    assert (Hm : 0 <= n mod 10 < 10) by (apply Z.mod_pos_bound; lia).
    destruct (Z.ltb_spec n 10) as [Hlt | Hge].
    + exists [n]. rewrite Z.mod_small by lia.
      repeat split; try discriminate; try lia.
      repeat constructor; lia.
    + destruct (IH (n / 10) (digit_char (n mod 10) :: acc))
        as (ds & Hne & Hall & Hval & Heq).
      { split; [apply Z.div_pos; lia |].
        apply Z.div_lt_upper_bound; [lia |].
        replace (Z.of_nat (S fuel) + 1) with (Z.succ (Z.of_nat fuel + 1)) in Hn
          by lia.
        rewrite Z.pow_succ_r in Hn by lia. lia. }
      exists (ds ++ [n mod 10]). repeat split.
      * destruct ds; discriminate.
      * apply Forall_app; split; [assumption | repeat constructor; lia].
      * rewrite mathInt_snoc, Hval.
        pose proof (Z.div_mod n 10 ltac:(lia)). lia.
      * rewrite Heq, map_app, <- app_assoc. reflexivity.
Qed.

Lemma digits_spec n :
  0 <= n ->
  exists ds,
    ds <> [] /\ Forall is_decimal ds /\ mathInt 10 ds = n /\
    digits n = map digit_char ds.
Proof.
  intros Hn. unfold digits.
  destruct (digits_from_spec (Z.to_nat (Z.log2 n)) n []) as (ds & ? & ? & ? & E).
  - split; [assumption |].
    rewrite Z2Nat.id by apply Z.log2_nonneg.
    destruct (Z.eq_dec n 0) as [-> | Hnz]; [reflexivity |].
    replace (Z.log2 n + 1) with (Z.succ (Z.log2 n)) by lia.
    apply Z.log2_spec; lia.
  - exists ds. rewrite app_nil_r in E. auto.
Qed.

(** After a minus sign, [parseInt] reads the digits and negates. *)
Lemma parseInt_minus s :
  parseInt (45%N :: s) 10 =
  match radix_prefix 10 s with
  | [] => NaN
  | ds => Num (- 1 * mathInt 10 ds)
  end.
Proof. reflexivity. Qed.

(** A text that starts with a decimal digit is read from its first unit. *)
Lemma parseInt_decimal_head d s :
  is_decimal d ->
  parseInt (digit_char d :: s) 10 =
  match radix_prefix 10 (digit_char d :: s) with
  | [] => NaN
  | ds => Num (1 * mathInt 10 ds)
  end.
Proof. intros H; each_decimal d H. Qed.

Lemma parseInt_decimal ds rest :
  ds <> [] -> Forall is_decimal ds -> radix_prefix 10 rest = [] ->
  parseInt (map digit_char ds ++ rest) 10 = Num (mathInt 10 ds).
Proof.
  intros Hne Hall Hrest.
  destruct ds as [| d ds]; [contradiction |].
  cbn [map app]. rewrite parseInt_decimal_head by (inversion Hall; assumption).
  change (digit_char d :: map digit_char ds ++ rest)
    with (map digit_char (d :: ds) ++ rest).
  rewrite radix_prefix_decimal, Hrest, app_nil_r by assumption.
  f_equal; lia.
Qed.

Lemma parseInt_minus_decimal ds rest :
  ds <> [] -> Forall is_decimal ds -> radix_prefix 10 rest = [] ->
  parseInt (45%N :: map digit_char ds ++ rest) 10 = Num (- mathInt 10 ds).
Proof.
  intros Hne Hall Hrest.
  rewrite parseInt_minus, radix_prefix_decimal, Hrest, app_nil_r by assumption.
  destruct ds as [| d ds]; [contradiction |]. f_equal; lia.
Qed.

(** Reading back what [toString] printed gives the integer. *)
Lemma parseInt_toString n : parseInt (toString (Num n)) 10 = Num n.
Proof.
  unfold toString. destruct (Z.ltb_spec n 0) as [Hneg | Hpos].
  - destruct (digits_spec (- n)) as (ds & Hne & Hall & Hval & ->); [lia |].
    rewrite <- (app_nil_r (map digit_char ds)).
    rewrite parseInt_minus_decimal by auto. f_equal; lia.
  - destruct (digits_spec n) as (ds & Hne & Hall & Hval & ->); [lia |].
    rewrite <- (app_nil_r (map digit_char ds)).
    rewrite parseInt_decimal by auto. f_equal; lia.
Qed.

Lemma toString_nonempty x : toString x <> [].
Proof.
  destruct x as [| n]; [discriminate |].
  unfold toString. destruct (n <? 0); [discriminate |].
  destruct (Z.le_gt_cases 0 n) as [Hn | Hn].
  - destruct (digits_spec n Hn) as (ds & Hne & _ & _ & ->).
    destruct ds; [contradiction | discriminate].
  - unfold digits. rewrite Z.log2_nonpos by lia. discriminate.
Qed.

End Decimal.

(** ** What one run of the handler leaves behind *)

Section Handler.

Lemma str_eqb_empty v : str_eqb v (lit "") = true <-> v = [].
Proof. destruct v; cbn; split; congruence. Qed.

Lemma handle_empty st :
  exec (handleMaxTokensChange tt (lit "")) st =
  (mkState (lit "") Default (lit ""), [None]).
Proof. reflexivity. Qed.

Lemma handle_nonempty v st :
  v <> lit "" ->
  exec (handleMaxTokensChange tt v) st =
  match parseInt v 10 with
  | NaN => (mkState v Error (lit "Must be a valid number"), [])
  | Num n =>
      if n <? 128 then (mkState v Error (lit "Minimum: 128"), [])
      else if 128000 <? n then (mkState v Error (lit "Maximum: 128,000"), [])
      else (mkState v Success (lit ""), [Some (Num n)])
  end.
Proof.
  intros Hv.
  assert (E : str_eqb v (lit "") = false).
  { destruct (str_eqb v (lit "")) eqn:E; [| reflexivity].
    apply str_eqb_empty in E. contradiction. }
  unfold handleMaxTokensChange, exec, bind. cbn [setMaxTokensValue].
  rewrite E.
  destruct (parseInt v 10) as [| n]; cbn [Number_isNaN lt gt]; [reflexivity |].
  destruct (n <? 128); [reflexivity |].
  destruct (128000 <? n); reflexivity.
Qed.

(** The handler never looks at the cells it overwrites. *)
Lemma handle_forgets v st1 st2 :
  exec (handleMaxTokensChange tt v) st1 = exec (handleMaxTokensChange tt v) st2.
Proof.
  destruct (list_eq_dec N.eq_dec v (lit "")) as [-> | Hv].
  - now rewrite !handle_empty.
  - now rewrite !handle_nonempty.
Qed.

(** The value cell holds the text of the event afterwards. *)
Lemma handle_echo v st :
  maxTokensValue (fst (exec (handleMaxTokensChange tt v) st)) = v.
Proof.
  destruct (list_eq_dec N.eq_dec v (lit "")) as [-> | Hv].
  - rewrite handle_empty. reflexivity.
  - rewrite handle_nonempty by assumption.
    destruct (parseInt v 10) as [| n]; [reflexivity |].
    destruct (n <? 128); [reflexivity |].
    destruct (128000 <? n); reflexivity.
Qed.

Lemma exec_seq (m k : Eff unit) st :
  exec (m ;; k) st =
  (fst (exec k (fst (exec m st))),
   snd (exec m st) ++ snd (exec k (fst (exec m st)))).
Proof.
  unfold exec, bind.
  destruct (m st) as [[[] st1] out1]. cbn [fst snd].
  destruct (k st1) as [[[] st2] out2]. reflexivity.
Qed.

Lemma change_cells v r :
  change v r =
  (mkRow (maxTokens r) (fst (exec (handleMaxTokensChange tt v) (cells r))),
   snd (exec (handleMaxTokensChange tt v) (cells r))).
Proof.
  unfold change. destruct (exec _ _) as [st out]. reflexivity.
Qed.

Lemma syncEffect_exec m st :
  exec (syncEffect m) st =
  (mkState (maxTokens_text m) (maxTokensValidated st) (maxTokensHelperText st),
   []).
Proof. reflexivity. Qed.

Lemma maxTokens_text_some x : maxTokens_text (Some x) = toString x.
Proof.
  unfold maxTokens_text, or_else. cbn [option_map].
  pose proof (toString_nonempty x) as H.
  destruct (toString x); [contradiction | reflexivity].
Qed.

End Handler.

(** ** The handler on accepted, cleared and rejected input *)

(** C1: for every integer [n] with [128 <= n <= 128000], the handler run on
    the decimal text of [n] sets the status to 'success' (Accepted), the
    helper text to the empty string, echoes the text, and calls
    [onMaxTokensChange] exactly once, with exactly [n]. *)
Theorem in_range_accepted n st :
  128 <= n <= 128000 ->
  exec (handleMaxTokensChange tt (toString (Num n))) st =
  (mkState (toString (Num n)) Success (lit ""), [Some (Num n)]).
Proof.
  intros Hn.
  rewrite handle_nonempty by apply toString_nonempty.
  rewrite parseInt_toString.
  destruct (Z.ltb_spec n 128); [lia |].
  destruct (Z.ltb_spec 128000 n); [lia | reflexivity].
Qed.

Lemma in_range_accepted_witness :
  128 <= 4096 <= 128000 /\
  exec (handleMaxTokensChange tt (lit "4096")) (cells row_4096) =
  (mkState (lit "4096") Success (lit ""), [Some (Num 4096)]).
Proof.
  split; [lia |].
  apply (in_range_accepted 4096 (cells row_4096)). lia.
Defined.

(** C2: the handler run on the empty string sets the status to 'default'
    (Neutral), the helper text to the empty string, and calls
    [onMaxTokensChange] with [undefined]; no other input makes the handler
    pass [undefined]. *)
Theorem empty_clears :
  (forall st,
     exec (handleMaxTokensChange tt (lit "")) st =
     (mkState (lit "") Default (lit ""), [None])) /\
  (forall v st,
     In None (snd (exec (handleMaxTokensChange tt v) st)) -> v = lit "").
Proof.
  split; [apply handle_empty |].
  intros v st Hin.
  destruct (list_eq_dec N.eq_dec v (lit "")) as [-> | Hv]; [reflexivity |].
  rewrite handle_nonempty in Hin by assumption.
  destruct (parseInt v 10) as [| n]; [destruct Hin |].
  destruct (n <? 128); [destruct Hin |].
  destruct (128000 <? n); [destruct Hin |].
  destruct Hin as [Hin | []]. discriminate.
Qed.

Lemma empty_clears_witness :
  In None (snd (exec (handleMaxTokensChange tt (lit "")) (cells row_4096))) /\
  lit "" = lit "".
Proof.
  split; [left; reflexivity |].
  apply (proj2 empty_clears (lit "") (cells row_4096)). left; reflexivity.
Defined.

(** C3: for every non-empty text that [parseInt] reads as NaN, the change
    sets the status to 'error' (Rejected) with the helper text
    "Must be a valid number", makes no call of [onMaxTokensChange] and leaves
    the committed value (the [maxTokens] prop) as it was.  And the handler
    throws on no input: every change returns a row, whose status is
    'default', 'success' or 'error', an 'error' coming without a call. *)
Theorem not_a_number_rejected :
  (forall v r,
     v <> lit "" -> parseInt v 10 = NaN ->
     change v r =
     (mkRow (maxTokens r) (mkState v Error (lit "Must be a valid number")),
      [])) /\
  (forall v r,
     exists r' out,
       change v r = (r', out) /\ maxTokensValue (cells r') = v /\
       (maxTokensValidated (cells r') = Default \/
        maxTokensValidated (cells r') = Success \/
        (maxTokensValidated (cells r') = Error /\ out = [] /\
         maxTokens r' = maxTokens r))).
Proof.
  split.
  - intros v r Hv Hnan.
    rewrite change_cells, handle_nonempty, Hnan by assumption. reflexivity.
  - intros v r. rewrite change_cells.
    destruct (list_eq_dec N.eq_dec v (lit "")) as [-> | Hv].
    + rewrite handle_empty. do 2 eexists; split; [reflexivity |]. cbn; auto.
    + rewrite handle_nonempty by assumption.
      destruct (parseInt v 10) as [| n];
        [| destruct (n <? 128); [| destruct (128000 <? n)]];
        do 2 eexists; (split; [reflexivity |]); cbn; auto 6.
Qed.

Lemma not_a_number_rejected_witness :
  lit "abc" <> lit "" /\ parseInt (lit "abc") 10 = NaN /\
  change (lit "abc") row_4096 =
  (mkRow (Some (Num 4096))
     (mkState (lit "abc") Error (lit "Must be a valid number")), []).
Proof.
  split; [discriminate |]. split; [reflexivity |].
  apply (proj1 not_a_number_rejected (lit "abc") row_4096);
    [discriminate | reflexivity].
Defined.

(** C4: for every non-empty text that [parseInt] reads as an integer [n]:
    when [n < 128] the change sets 'error' with "Minimum: 128" and makes no
    call; when [n > 128000] it sets 'error' with "Maximum: 128,000" and makes
    no call; the comparison with 128 is made first, the one with 128000 only
    when it fails. *)
Theorem out_of_range_rejected v r n :
  v <> lit "" -> parseInt v 10 = Num n ->
  change v r =
  (if lt (Num n) (Num 128)
   then (mkRow (maxTokens r) (mkState v Error (lit "Minimum: 128")), [])
   else if gt (Num n) (Num 128000)
   then (mkRow (maxTokens r) (mkState v Error (lit "Maximum: 128,000")), [])
   else (mkRow (maxTokens r) (mkState v Success (lit "")), [Some (Num n)])) /\
  (n < 128 ->
   change v r =
   (mkRow (maxTokens r) (mkState v Error (lit "Minimum: 128")), [])) /\
  (n > 128000 ->
   change v r =
   (mkRow (maxTokens r) (mkState v Error (lit "Maximum: 128,000")), [])).
Proof.
  intros Hv Hn.
  rewrite change_cells, handle_nonempty, Hn by assumption.
  cbn [lt gt].
  destruct (Z.ltb_spec n 128); destruct (Z.ltb_spec 128000 n);
    repeat split; intros; try reflexivity; lia.
Qed.

Lemma out_of_range_rejected_witness :
  lit "64" <> lit "" /\ parseInt (lit "64") 10 = Num 64 /\ 64 < 128 /\
  change (lit "64") row_4096 =
  (mkRow (Some (Num 4096)) (mkState (lit "64") Error (lit "Minimum: 128")),
   []).
Proof.
  split; [discriminate |]. split; [reflexivity |]. split; [lia |].
  apply (out_of_range_rejected (lit "64") row_4096 64);
    [discriminate | reflexivity | lia].
Defined.

(** ** Echo, notifications and the state between changes *)

(** C5: every change puts the new text into the value cell, whatever the
    verdict; it calls [onMaxTokensChange] at most once, and it calls it
    exactly when the text is empty or is read as an integer between 128 and
    128000; mounting and re-rendering call it never. *)
Theorem echo_and_notify v r :
  maxTokensValue (cells (fst (change v r))) = v /\
  (List.length (snd (change v r)) <= 1)%nat /\
  (snd (change v r) <> [] <->
   v = lit "" \/ exists n, parseInt v 10 = Num n /\ 128 <= n <= 128000) /\
  (forall m, snd (mount m) = []) /\
  (forall m, snd (rerender m r) = []).
Proof.
  assert (Hmount : forall m, snd (mount m) = []) by reflexivity.
  assert (Hrender : forall m, snd (rerender m r) = []).
  { intros m. unfold rerender.
    destruct (same_value (maxTokens r) m); reflexivity. }
  rewrite change_cells. cbn [fst snd cells].
  destruct (list_eq_dec N.eq_dec v (lit "")) as [-> | Hv].
  - rewrite handle_empty. cbn [fst snd maxTokensValue List.length].
    repeat split; auto. intros _; discriminate.
  - rewrite handle_nonempty by assumption.
    destruct (parseInt v 10) as [| n].
    + cbn [fst snd maxTokensValue List.length].
      repeat split; auto; try contradiction.
      intros [? | (n & Hn & _)]; [contradiction | discriminate].
    + destruct (Z.ltb_spec n 128); [| destruct (Z.ltb_spec 128000 n)];
        cbn [fst snd maxTokensValue List.length];
        (repeat split; auto; try contradiction).
      * intros [? | (k & Hk & ?)]; [contradiction |].
        injection Hk as <-. lia.
      * intros [? | (k & Hk & ?)]; [contradiction |].
        injection Hk as <-. lia.
      * intros _. right. exists n. split; [reflexivity | lia].
      * intros _; discriminate.
Qed.

Lemma echo_and_notify_witness :
  snd (change (lit "") row_4096) <> [] /\
  (lit "" = lit "" \/
   exists n, parseInt (lit "") 10 = Num n /\ 128 <= n <= 128000).
Proof.
  split; [discriminate |].
  apply (proj1 (proj1 (proj2 (proj2 (echo_and_notify (lit "") row_4096))))).
  discriminate.
Defined.

(** C6, as the code has it: right after a change the status and the helper
    text are a function of the text now in the value cell, the same for
    every row the change started from.  Mounting sets 'default' and the
    empty helper text for every prop, and a render with a new prop keeps the
    status and the helper text the row had, next to the new text. *)
Theorem verdict_follows_change_only :
  (exists f,
     forall v r,
       let c := cells (fst (change v r)) in
       (maxTokensValidated c, maxTokensHelperText c) = f (maxTokensValue c)) /\
  (forall m,
     maxTokensValidated (cells (fst (mount m))) = Default /\
     maxTokensHelperText (cells (fst (mount m))) = lit "") /\
  (forall m r,
     maxTokensValidated (cells (fst (rerender m r))) =
       maxTokensValidated (cells r) /\
     maxTokensHelperText (cells (fst (rerender m r))) =
       maxTokensHelperText (cells r)).
Proof.
  split; [| split].
  - exists (fun text =>
              let c := fst (exec (handleMaxTokensChange tt text)
                              (useState_init None)) in
              (maxTokensValidated c, maxTokensHelperText c)).
    intros v r c. subst c.
    rewrite change_cells. cbn [fst cells]. rewrite handle_echo.
    now rewrite (handle_forgets v (cells r) (useState_init None)).
  - intros m. split; reflexivity.
  - intros m r. unfold rerender.
    destruct (same_value (maxTokens r) m); split; reflexivity.
Qed.

(** C6, as the spec words it, fails: two rows a user and a parent can bring
    about hold the same text "8192", one with 'success' and no helper text,
    the other with 'error' and "Minimum: 128" left over from the text "64". *)
Lemma verdict_not_function_of_text :
  ~ (exists f,
       forall r, reachable r ->
         (maxTokensValidated (cells r), maxTokensHelperText (cells r)) =
         f (maxTokensValue (cells r))).
Proof.
  intros [f Hf].
  assert (Ha : reachable row_typed_8192) by (do 2 constructor).
  assert (Hb : reachable row_synced_8192) by (do 3 constructor).
  apply Hf in Ha. apply Hf in Hb.
  change (maxTokensValue (cells row_synced_8192))
    with (maxTokensValue (cells row_typed_8192)) in Hb.
  rewrite <- Ha in Hb. discriminate Hb.
Qed.

(** C7, as the code has it: the effect overwrites the value cell with the
    text of the prop (the empty string for [undefined]), calls
    [onMaxTokensChange] never, and leaves the status and the helper text
    untouched; for the prop 8192 the value cell becomes "8192" and the
    status stays what it was. *)
Theorem resync_keeps_verdict :
  (forall m st,
     exec (syncEffect m) st =
     (mkState (maxTokens_text m)
        (maxTokensValidated st) (maxTokensHelperText st), [])) /\
  maxTokens_text None = lit "" /\
  (forall x, maxTokens_text (Some x) = toString x) /\
  (forall st,
     exec (syncEffect (Some (Num 8192))) st =
     (mkState (lit "8192") (maxTokensValidated st) (maxTokensHelperText st),
      [])).
Proof.
  repeat split; try reflexivity. apply maxTokens_text_some.
Qed.

(** C7, as the spec words it, fails: on a freshly mounted row the effect for
    the prop 8192 leaves the status 'default', not 'success'. *)
Lemma resync_does_not_accept :
  maxTokensValue (fst (exec (syncEffect (Some (Num 8192))) (cells row_unset)))
    = lit "8192" /\
  maxTokensValidated
    (fst (exec (syncEffect (Some (Num 8192))) (cells row_unset))) <> Success.
Proof. split; [reflexivity | discriminate]. Qed.

(** C8, as the code has it: a mounted row holds the text of the prop (the
    empty string for [undefined]) with the status 'default' and an empty
    helper text, whatever the prop; mounted with 4096 it holds "4096" and
    'default'. *)
Theorem mount_is_neutral :
  (forall m,
     mount m = (mkRow m (mkState (maxTokens_text m) Default (lit "")), [])) /\
  maxTokens_text None = lit "" /\
  (forall x, maxTokens_text (Some x) = toString x) /\
  cells row_4096 = mkState (lit "4096") Default (lit "").
Proof.
  repeat split; try reflexivity. apply maxTokens_text_some.
Qed.

(** C8, as the spec words it, fails: the row mounted with 4096 is not
    'success'. *)
Lemma mount_4096_not_accepted :
  maxTokensValue (cells row_4096) = lit "4096" /\
  maxTokensValidated (cells row_4096) <> Success.
Proof. split; [reflexivity | discriminate]. Qed.

(** C9: two changes in a row with the same text leave the same cells after
    the second as after the first and make the same calls; together they
    call [onMaxTokensChange] twice with [undefined] for the empty text and
    twice with [n] for a text read as [n] between 128 and 128000. *)
Theorem change_twice v st :
  let once := exec (handleMaxTokensChange tt v) st in
  let again := exec (handleMaxTokensChange tt v) (fst once) in
  fst again = fst once /\ snd again = snd once /\
  exec (handleMaxTokensChange tt v ;; handleMaxTokensChange tt v) st =
    (fst once, snd once ++ snd once) /\
  (v = lit "" -> snd once ++ snd again = [None; None]) /\
  (forall n,
     v <> lit "" -> parseInt v 10 = Num n -> 128 <= n <= 128000 ->
     snd once ++ snd again = [Some (Num n); Some (Num n)]).
Proof.
  intros once again. subst once again.
  rewrite (handle_forgets v (fst (exec (handleMaxTokensChange tt v) st)) st).
  repeat split.
  - rewrite exec_seq.
    now rewrite (handle_forgets v (fst (exec (handleMaxTokensChange tt v) st)) st).
  - intros ->. reflexivity.
  - intros n Hv Hn Hrange. rewrite handle_nonempty, Hn by assumption.
    destruct (Z.ltb_spec n 128); [lia |].
    destruct (Z.ltb_spec 128000 n); [lia | reflexivity].
Qed.

Lemma change_twice_witness :
  lit "4096" <> lit "" /\ parseInt (lit "4096") 10 = Num 4096 /\
  128 <= 4096 <= 128000 /\
  snd (exec (handleMaxTokensChange tt (lit "4096")) (cells row_unset)) ++
  snd (exec (handleMaxTokensChange tt (lit "4096"))
         (fst (exec (handleMaxTokensChange tt (lit "4096")) (cells row_unset))))
  = [Some (Num 4096); Some (Num 4096)].
Proof.
  split; [discriminate |]. split; [reflexivity |]. split; [lia |].
  apply (proj2 (proj2 (proj2 (proj2
           (change_twice (lit "4096") (cells row_unset))))) 4096);
    [discriminate | reflexivity | lia].
Defined.

(** C10: for every integer [n < 0], [parseInt] reads the decimal text of [n]
    (such as "-5") as [n] itself, not as NaN, so the handler sets 'error'
    with "Minimum: 128", not "Must be a valid number", and makes no call. *)
Theorem negative_below_minimum n st :
  n < 0 ->
  parseInt (toString (Num n)) 10 = Num n /\
  exec (handleMaxTokensChange tt (toString (Num n))) st =
  (mkState (toString (Num n)) Error (lit "Minimum: 128"), []).
Proof.
  intros Hn. split; [apply parseInt_toString |].
  rewrite handle_nonempty by apply toString_nonempty.
  rewrite parseInt_toString.
  destruct (Z.ltb_spec n 128); [reflexivity | lia].
Qed.

Lemma negative_below_minimum_witness :
  -5 < 0 /\
  parseInt (lit "-5") 10 = Num (-5) /\
  exec (handleMaxTokensChange tt (lit "-5")) (cells row_4096) =
  (mkState (lit "-5") Error (lit "Minimum: 128"), []).
Proof.
  split; [lia |].
  apply (negative_below_minimum (-5) (cells row_4096)). lia.
Defined.

(** The same holds with leading zeros or text after the digits: a minus
    sign followed by decimal digits is below the minimum. *)
Lemma minus_digits_below_minimum ds rest st :
  ds <> [] -> Forall is_decimal ds -> radix_prefix 10 rest = [] ->
  exec (handleMaxTokensChange tt (45%N :: map digit_char ds ++ rest)) st =
  (mkState (45%N :: map digit_char ds ++ rest) Error (lit "Minimum: 128"), []).
Proof.
  intros Hne Hall Hrest.
  rewrite handle_nonempty by discriminate.
  rewrite parseInt_minus_decimal by assumption.
  pose proof (mathInt_nonneg ds Hall).
  destruct (Z.ltb_spec (- mathInt 10 ds) 128); [reflexivity | lia].
Qed.

(** ** The scenarios of the row, run on the code *)

(** From the row mounted with 4096, typing "64" is rejected and the parent
    hears nothing. *)
Example scenario_below_minimum :
  change (lit "64") row_4096 =
  (mkRow (Some (Num 4096)) (mkState (lit "64") Error (lit "Minimum: 128")),
   []).
Proof. reflexivity. Qed.

(** Clearing the field tells the parent [undefined]. *)
Example scenario_cleared :
  change (lit "") row_4096 =
  (mkRow (Some (Num 4096)) (mkState (lit "") Default (lit "")), [None]).
Proof. reflexivity. Qed.

(** Typing "200000" is rejected as above the maximum. *)
Example scenario_above_maximum :
  change (lit "200000") row_4096 =
  (mkRow (Some (Num 4096))
     (mkState (lit "200000") Error (lit "Maximum: 128,000")), []).
Proof. reflexivity. Qed.

(** Text after a valid integer prefix is ignored by [parseInt]: the field
    keeps the whole text and the parent receives the prefix. *)
Example scenario_trailing_text :
  change (lit "200abc") row_4096 =
  (mkRow (Some (Num 4096)) (mkState (lit "200abc") Success (lit "")),
   [Some (Num 200)]).
Proof. reflexivity. Qed.

(** A lone minus sign has no digits and is not a number. *)
Example scenario_lone_minus :
  change (lit "-") row_4096 =
  (mkRow (Some (Num 4096))
     (mkState (lit "-") Error (lit "Must be a valid number")), []).
Proof. reflexivity. Qed.

(** A render with the prop it already has leaves an edit in progress. *)
Example scenario_same_prop :
  rerender (Some (Num 4096)) (fst (change (lit "64") row_4096)) =
  (fst (change (lit "64") row_4096), []).
Proof. reflexivity. Qed.

(** A render with a new prop replaces the text and keeps the old verdict. *)
Example scenario_stale_verdict :
  cells row_synced_8192 =
  mkState (lit "8192") Error (lit "Minimum: 128").
Proof. reflexivity. Qed.

(** ** What [parseInt] tolerates around a number *)

Section Lenient.

Lemma trim_start_idem s : trim_start (trim_start s) = trim_start s.
Proof.
  induction s as [| c s IH]; [reflexivity |].
  cbn [trim_start]. destruct (is_white_space c) eqn:E; [assumption |].
  cbn [trim_start]. now rewrite E.
Qed.

Lemma trim_start_white ws s : all_white ws -> trim_start (ws ++ s) = trim_start s.
Proof.
  induction 1 as [| c ws Hc _ IH]; [reflexivity |].
  cbn [app trim_start]. now rewrite Hc.
Qed.

Lemma parseInt_trim s radix : parseInt (trim_start s) radix = parseInt s radix.
Proof. unfold parseInt. now rewrite trim_start_idem. Qed.

Lemma parseInt_white ws s radix :
  all_white ws -> parseInt (ws ++ s) radix = parseInt s radix.
Proof.
  intros Hws. rewrite <- (parseInt_trim (ws ++ s)), trim_start_white by assumption.
  apply parseInt_trim.
Qed.

Lemma parseInt_plus s :
  parseInt (43%N :: s) 10 =
  match radix_prefix 10 s with
  | [] => NaN
  | ds => Num (1 * mathInt 10 ds)
  end.
Proof. reflexivity. Qed.

Lemma mathInt_zeros k ds : mathInt 10 (repeat 0 k ++ ds) = mathInt 10 ds.
Proof.
  unfold mathInt. rewrite fold_left_app. f_equal.
  induction k as [| k IH]; [reflexivity | exact IH].
Qed.

Lemma zeros_decimal k : Forall is_decimal (repeat 0 k).
Proof.
  induction k; cbn; constructor; [unfold is_decimal; lia | assumption].
Qed.

(** Whitespace, an optional plus sign and zeros before the decimal text of
    [n], and anything that does not start with a digit after it, are read
    as [n]. *)
Lemma parseInt_lenient ws sign k n rest :
  all_white ws -> sign = [] \/ sign = [43%N] -> 0 <= n ->
  radix_prefix 10 rest = [] ->
  parseInt (ws ++ sign ++ repeat 48%N k ++ toString (Num n) ++ rest) 10 = Num n.
Proof.
  intros Hws Hsign Hn Hrest.
  rewrite parseInt_white by assumption.
  unfold toString. destruct (Z.ltb_spec n 0) as [? | _]; [lia |].
  destruct (digits_spec n Hn) as (ds & Hne & Hall & Hval & ->).
  change 48%N with (digit_char 0).
  rewrite <- map_repeat, (app_assoc (map digit_char (repeat 0 k))), <- map_app.
  assert (Hne' : repeat 0 k ++ ds <> [])
    by (destruct (repeat 0 k), ds; try discriminate; contradiction).
  assert (Hall' : Forall is_decimal (repeat 0 k ++ ds))
    by (apply Forall_app; split; [apply zeros_decimal | assumption]).
  destruct Hsign as [-> | ->]; cbn [app].
  - rewrite parseInt_decimal by assumption.
    now rewrite mathInt_zeros, Hval.
  - rewrite parseInt_plus, radix_prefix_decimal, Hrest, app_nil_r
      by assumption.
    rewrite <- Hval, <- (mathInt_zeros k ds).
    destruct (repeat 0 k ++ ds); [contradiction | f_equal; lia].
Qed.

Lemma parseInt_only_white ws : all_white ws -> parseInt ws 10 = NaN.
Proof.
  intros Hws. rewrite <- (app_nil_r ws), parseInt_white by assumption.
  reflexivity.
Qed.

Lemma parseInt_sign_only sgn rest :
  sgn = 43%N \/ sgn = 45%N -> radix_prefix 10 rest = [] ->
  parseInt (sgn :: rest) 10 = NaN.
Proof.
  intros [-> | ->] Hrest;
    [rewrite parseInt_plus | rewrite parseInt_minus]; now rewrite Hrest.
Qed.

End Lenient.

(** ** Texts the handler accepts or rejects beyond the canonical ones *)

(** X1: the verdict on decorated text is the range test on the number inside:
    with white space, an optional plus sign and leading zeros in front of
    the decimal text of [n >= 0], and any text that does not start with a
    digit behind it, the handler echoes the whole text and decides on [n]
    alone; in range it reports [n] to the parent. *)
Theorem decorated_text_verdict ws sign k n rest st :
  all_white ws -> sign = [] \/ sign = [43%N] -> 0 <= n ->
  radix_prefix 10 rest = [] ->
  let text := ws ++ sign ++ repeat 48%N k ++ toString (Num n) ++ rest in
  exec (handleMaxTokensChange tt text) st =
  if n <? 128 then (mkState text Error (lit "Minimum: 128"), [])
  else if 128000 <? n then (mkState text Error (lit "Maximum: 128,000"), [])
  else (mkState text Success (lit ""), [Some (Num n)]).
Proof.
  intros Hws Hsign Hn Hrest text.
  assert (Htext : text <> lit "").
  { subst text. intros E.
    do 3 (apply app_eq_nil in E; destruct E as [_ E]).
    apply app_eq_nil in E. destruct E as [E _].
    exact (toString_nonempty _ E). }
  rewrite handle_nonempty by assumption.
  subst text. now rewrite parseInt_lenient.
Qed.

Lemma decorated_text_verdict_witness :
  all_white (lit " ") /\ 0 <= 4096 /\ radix_prefix 10 (lit ".5 tokens") = [] /\
  exec (handleMaxTokensChange tt (lit " +004096.5 tokens")) (cells row_unset) =
  (mkState (lit " +004096.5 tokens") Success (lit ""), [Some (Num 4096)]).
Proof.
  split; [repeat constructor |]. split; [lia |]. split; [reflexivity |].
  apply (decorated_text_verdict (lit " ") [43%N] 2 4096 (lit ".5 tokens")
           (cells row_unset));
    [repeat constructor | right; reflexivity | lia | reflexivity].
Defined.

(** X2: only the empty string clears the limit: a non-empty text of white space
    is rejected as not a number, and the parent is not called. *)
Theorem white_space_is_not_empty ws st :
  ws <> lit "" -> all_white ws ->
  exec (handleMaxTokensChange tt ws) st =
  (mkState ws Error (lit "Must be a valid number"), []).
Proof.
  intros Hne Hws. rewrite handle_nonempty by assumption.
  now rewrite parseInt_only_white.
Qed.

Lemma white_space_is_not_empty_witness :
  lit "  " <> lit "" /\ all_white (lit "  ") /\
  exec (handleMaxTokensChange tt (lit "  ")) (cells row_4096) =
  (mkState (lit "  ") Error (lit "Must be a valid number"), []).
Proof.
  split; [discriminate |]. split; [repeat constructor |].
  apply (white_space_is_not_empty (lit "  ") (cells row_4096));
    [discriminate | repeat constructor].
Defined.

(** X3: a sign that is not followed by a digit (a lone sign, two signs, a sign
    and a space) is not a number, also after leading white space. *)
Theorem sign_without_digit_rejected ws sgn rest st :
  all_white ws -> sgn = 43%N \/ sgn = 45%N -> radix_prefix 10 rest = [] ->
  exec (handleMaxTokensChange tt (ws ++ sgn :: rest)) st =
  (mkState (ws ++ sgn :: rest) Error (lit "Must be a valid number"), []).
Proof.
  intros Hws Hsgn Hrest.
  rewrite handle_nonempty by (destruct ws; discriminate).
  now rewrite parseInt_white, parseInt_sign_only.
Qed.

Lemma sign_without_digit_rejected_witness :
  all_white (lit "") /\ radix_prefix 10 (lit "-500") = [] /\
  exec (handleMaxTokensChange tt (lit "--500")) (cells row_4096) =
  (mkState (lit "--500") Error (lit "Must be a valid number"), []).
Proof.
  split; [constructor |]. split; [reflexivity |].
  apply (sign_without_digit_rejected (lit "") 45%N (lit "-500")
           (cells row_4096));
    [constructor | right; reflexivity | reflexivity].
Defined.

(** X4: the radix 10 handed to [parseInt] rules hexadecimal notation out: a
    text that starts with 0x or 0X is read as 0 and rejected as below the
    minimum, whatever follows. *)
Theorem hexadecimal_rejected x rest st :
  x = 120%N \/ x = 88%N ->
  exec (handleMaxTokensChange tt (48%N :: x :: rest)) st =
  (mkState (48%N :: x :: rest) Error (lit "Minimum: 128"), []).
Proof.
  intros [-> | ->]; rewrite handle_nonempty by discriminate; reflexivity.
Qed.

Lemma hexadecimal_rejected_witness :
  exec (handleMaxTokensChange tt (lit "0x1000")) (cells row_4096) =
  (mkState (lit "0x1000") Error (lit "Minimum: 128"), []).
Proof.
  apply (hexadecimal_rejected 120%N (lit "1000") (cells row_4096)).
  left; reflexivity.
Defined.

(** ** The field and the prop together *)


(** X6: after an accepted change the parent has been told [n].  When it then
    renders the row with the prop [n], the field keeps 'success' and an
    empty helper text; its text becomes the decimal text of [n] if the prop
    was another value before, and stays what the user typed if the prop was
    [n] already. *)
Theorem accepted_then_committed v r n :
  v <> lit "" -> parseInt v 10 = Num n -> 128 <= n <= 128000 ->
  snd (change v r) = [Some (Num n)] /\
  let r' := fst (rerender (Some (Num n)) (fst (change v r))) in
  maxTokens r' = Some (Num n) /\
  cells r' =
  mkState (if same_value (maxTokens r) (Some (Num n)) then v
           else toString (Num n)) Success (lit "").
Proof.
  intros Hv Hn Hrange.
  rewrite change_cells, handle_nonempty, Hn by assumption.
  destruct (Z.ltb_spec n 128); [lia |].
  destruct (Z.ltb_spec 128000 n); [lia |].
  cbn [fst snd]. split; [reflexivity |].
  unfold rerender. cbn [maxTokens cells].
  destruct (same_value (maxTokens r) (Some (Num n))).
  - split; reflexivity.
  - rewrite syncEffect_exec, maxTokens_text_some. split; reflexivity.
Qed.

Lemma accepted_then_committed_witness :
  lit "200abc" <> lit "" /\ parseInt (lit "200abc") 10 = Num 200 /\
  128 <= 200 <= 128000 /\
  snd (change (lit "200abc") row_4096) = [Some (Num 200)] /\
  cells (fst (rerender (Some (Num 200)) (fst (change (lit "200abc") row_4096))))
  = mkState (lit "200") Success (lit "").
Proof.
  split; [discriminate |]. split; [reflexivity |]. split; [lia |].
  destruct (accepted_then_committed (lit "200abc") row_4096 200)
    as (Hout & _ & Hcells); [discriminate | reflexivity | lia |].
  split; [exact Hout | exact Hcells].
Defined.

(** ** Sequences of events *)

Section Traces.

Lemma step_out_forgets e r1 r2 : snd (step e r1) = snd (step e r2).
Proof.
  destruct e as [v | m]; cbn [step].
  - rewrite !change_cells. cbn [snd].
    now rewrite (handle_forgets v (cells r1) (cells r2)).
  - unfold rerender.
    destruct (same_value (maxTokens r1) m), (same_value (maxTokens r2) m);
      reflexivity.
Qed.

Lemma run_cons e es r :
  run (e :: es) r =
  (fst (run es (fst (step e r))),
   snd (step e r) ++ snd (run es (fst (step e r)))).
Proof.
  cbn [run]. destruct (step e r) as [r1 out1]. cbn [fst snd].
  destruct (run es r1) as [r2 out2]. reflexivity.
Qed.

Lemma run_out_forgets es : forall r1 r2, snd (run es r1) = snd (run es r2).
Proof.
  induction es as [| e es IH]; intros r1 r2; [reflexivity |].
  rewrite !run_cons. cbn [snd].
  now rewrite (step_out_forgets e r1 r2),
    (IH (fst (step e r1)) (fst (step e r2))).
Qed.

Lemma run_app es1 es2 r :
  run (es1 ++ es2) r =
  (fst (run es2 (fst (run es1 r))),
   snd (run es1 r) ++ snd (run es2 (fst (run es1 r)))).
Proof.
  revert r. induction es1 as [| e es1 IH]; intros r.
  - cbn [app run fst snd]. destruct (run es2 r); reflexivity.
  - rewrite <- app_comm_cons, !run_cons, IH. cbn [fst snd].
    now rewrite app_assoc.
Qed.

Lemma step_reachable e r : reachable r -> reachable (fst (step e r)).
Proof. destruct e; cbn [step]; now constructor. Qed.

Lemma run_reachable es : forall r, reachable r -> reachable (fst (run es r)).
Proof.
  induction es as [| e es IH]; intros r Hr; [assumption |].
  rewrite run_cons. cbn [fst]. apply IH, step_reachable, Hr.
Qed.

Lemma step_out_valid e r :
  Forall (fun x => x = None \/
                   exists n, x = Some (Num n) /\ 128 <= n <= 128000)
    (snd (step e r)).
Proof.
  destruct e as [v | m]; cbn [step].
  - rewrite change_cells. cbn [snd].
    destruct (list_eq_dec N.eq_dec v (lit "")) as [-> | Hv].
    + rewrite handle_empty. repeat constructor.
    + rewrite handle_nonempty by assumption.
      destruct (parseInt v 10) as [| n]; [constructor |].
      destruct (Z.ltb_spec n 128); [constructor |].
      destruct (Z.ltb_spec 128000 n); [constructor |].
      constructor; [| constructor]. right. exists n. split; [reflexivity | lia].
  - unfold rerender. destruct (same_value (maxTokens r) m); constructor.
Qed.

Lemma step_out_length e r :
  (List.length (snd (step e r)) <=
   match e with UserChange _ => 1 | ParentRender _ => 0 end)%nat.
Proof.
  destruct e as [v | m]; cbn [step].
  - rewrite change_cells. cbn [snd].
    destruct (list_eq_dec N.eq_dec v (lit "")) as [-> | Hv].
    + rewrite handle_empty. cbn; lia.
    + rewrite handle_nonempty by assumption.
      destruct (parseInt v 10) as [| n]; [cbn; lia |].
      destruct (n <? 128); [cbn; lia |].
      destruct (128000 <? n); cbn; lia.
  - unfold rerender. destruct (same_value (maxTokens r) m); cbn; lia.
Qed.

End Traces.

(** X7: whatever the user types and the parent renders, in any order, the
    parent is only ever told [undefined] or an integer between 128 and
    128000, and is told at most once per edit. *)
Theorem parent_only_hears_valid es r :
  Forall (fun x => x = None \/
                   exists n, x = Some (Num n) /\ 128 <= n <= 128000)
    (snd (run es r)) /\
  (List.length (snd (run es r)) <=
   List.length (filter (fun e => match e with
                                 | UserChange _ => true
                                 | ParentRender _ => false
                                 end) es))%nat.
Proof.
  revert r. induction es as [| e es IH]; intros r.
  - split; [constructor | cbn; lia].
  - rewrite run_cons. cbn [snd]. destruct (IH (fst (step e r))) as [Hv Hl].
    split.
    + apply Forall_app. split; [apply step_out_valid | exact Hv].
    + rewrite length_app. pose proof (step_out_length e r) as He.
      destruct e; cbn [filter List.length]; lia.
Qed.

(** X8: the calls a sequence of events makes do not depend on the row it
    starts from, and the calls of two sequences run one after the other are
    those of the first followed by those of the second run on its own: a
    rejected edit or a render changes no later call and no order. *)
Theorem calls_independent_of_history es1 es2 r1 r2 :
  snd (run es1 r1) = snd (run es1 r2) /\
  snd (run (es1 ++ es2) r1) = snd (run es1 r1) ++ snd (run es2 r1).
Proof.
  split; [apply run_out_forgets |].
  rewrite run_app. cbn [snd]. f_equal. apply run_out_forgets.
Qed.

(** X9: on every row a user and a parent can bring about, the status is never
    'warning', the helper text is empty when the status is 'default' or
    'success', and it is one of the three messages when the status is
    'error'. *)
Theorem status_and_helper_agree r :
  reachable r ->
  (maxTokensValidated (cells r) = Default /\
   maxTokensHelperText (cells r) = lit "") \/
  (maxTokensValidated (cells r) = Success /\
   maxTokensHelperText (cells r) = lit "") \/
  (maxTokensValidated (cells r) = Error /\
   (maxTokensHelperText (cells r) = lit "Must be a valid number" \/
    maxTokensHelperText (cells r) = lit "Minimum: 128" \/
    maxTokensHelperText (cells r) = lit "Maximum: 128,000")).
Proof.
  induction 1 as [m | m r Hr IH | v r Hr IH].
  - left. split; reflexivity.
  - unfold rerender. destruct (same_value (maxTokens r) m); exact IH.
  - rewrite change_cells. cbn [fst cells].
    destruct (list_eq_dec N.eq_dec v (lit "")) as [-> | Hv].
    + rewrite handle_empty. left. split; reflexivity.
    + rewrite handle_nonempty by assumption.
      destruct (parseInt v 10) as [| n]; [cbn; auto 6 |].
      destruct (n <? 128); [cbn; auto 6 |].
      destruct (128000 <? n); cbn; auto 6.
Qed.

Lemma status_and_helper_agree_witness :
  reachable row_synced_8192 /\
  ((maxTokensValidated (cells row_synced_8192) = Default /\
    maxTokensHelperText (cells row_synced_8192) = lit "") \/
   (maxTokensValidated (cells row_synced_8192) = Success /\
    maxTokensHelperText (cells row_synced_8192) = lit "") \/
   (maxTokensValidated (cells row_synced_8192) = Error /\
    (maxTokensHelperText (cells row_synced_8192)
       = lit "Must be a valid number" \/
     maxTokensHelperText (cells row_synced_8192) = lit "Minimum: 128" \/
     maxTokensHelperText (cells row_synced_8192) = lit "Maximum: 128,000"))).
Proof.
  assert (Hr : reachable row_synced_8192) by (do 3 constructor).
  split; [exact Hr |].
  apply (status_and_helper_agree row_synced_8192 Hr).
Defined.

(** ** The rendered row and its ids *)

Section View.

Lemma str_eqb_eq a : forall b, str_eqb a b = true <-> a = b.
Proof.
  induction a as [| x a IH]; intros [| y b]; cbn [str_eqb];
    try (split; congruence).
  rewrite andb_true_iff, N.eqb_eq, IH. split.
  - intros [-> ->]; reflexivity.
  - intros E; injection E; auto.
Qed.

Lemma sanitized_clean model :
  forallb is_testid_unit (sanitizedModelName model) = true.
Proof. apply forallb_filter. Qed.

End View.

(** X10: whatever the model name, every id and test id built from the sanitized
    name (the test id of the checkbox and, for a selected row, the field id,
    the input id and the test id of the input) consists of ASCII letters,
    digits and hyphens only. *)
Theorem sanitized_ids_clean model isChecked st :
  Forall (fun id => forallb is_testid_unit id = true)
    (sanitized_ids (render model isChecked st)).
Proof.
  pose proof (sanitized_clean model) as Hs.
  unfold sanitized_ids, render.
  cbn [view_checkbox checkbox_testid view_maxTokens].
  destruct isChecked; cbn [group_fieldId input_id input_testid];
    repeat constructor; rewrite forallb_app, Hs; reflexivity.
Qed.

(** X11: sanitizing is idempotent, and a name of letters, digits and hyphens is
    its own sanitized name. *)
Theorem sanitize_idempotent model :
  sanitizedModelName
    (mkAIModel (sanitizedModelName model) (display_name model)
       (description model) (status model) (usecase model)
       (isMaaSModel model))
  = sanitizedModelName model /\
  (forallb is_testid_unit (model_name model) = true ->
   sanitizedModelName model = model_name model).
Proof.
  unfold sanitizedModelName. cbn [model_name]. split.
  - apply forallb_filter_id, forallb_filter.
  - apply forallb_filter_id.
Qed.

Lemma sanitize_idempotent_witness :
  forallb is_testid_unit (lit "llama-3-8b") = true /\
  sanitizedModelName
    (mkAIModel (lit "llama-3-8b") (lit "Llama") (lit "") (lit "Running")
       (lit "chat") false)
  = lit "llama-3-8b".
Proof.
  split; [reflexivity |].
  apply (proj2 (sanitize_idempotent
                  (mkAIModel (lit "llama-3-8b") (lit "Llama") (lit "")
                     (lit "Running") (lit "chat") false))).
  reflexivity.
Defined.

(** X12: the ids do not tell model names apart: two models whose names differ
    only by one removed code unit (a dot, a slash, a colon, a space, any
    non-ASCII unit) get the same ids in every render, while the checkbox id,
    which is the raw name, differs. *)
Theorem sanitized_ids_collide m1 m2 a c b isChecked st :
  is_testid_unit c = false ->
  model_name m1 = a ++ c :: b -> model_name m2 = a ++ b ->
  sanitized_ids (render m1 isChecked st) =
    sanitized_ids (render m2 isChecked st) /\
  checkbox_id (view_checkbox (render m1 isChecked st)) <>
    checkbox_id (view_checkbox (render m2 isChecked st)).
Proof.
  intros Hc H1 H2.
  assert (Hs : sanitizedModelName m1 = sanitizedModelName m2).
  { unfold sanitizedModelName. rewrite H1, H2, !filter_app.
    cbn [filter]. now rewrite Hc. }
  split.
  - unfold sanitized_ids, render.
    cbn [view_checkbox checkbox_testid view_maxTokens].
    rewrite Hs. destruct isChecked; reflexivity.
  - cbn [render view_checkbox checkbox_id]. rewrite H1, H2.
    intros E. apply app_inv_head in E.
    apply (f_equal (@List.length _)) in E. cbn [List.length] in E. lia.
Qed.

Lemma sanitized_ids_collide_witness :
  is_testid_unit 46%N = false /\
  sanitized_ids
    (render (mkAIModel (lit "llama-3.1") (lit "A") (lit "") (lit "Running")
               (lit "chat") false) true (cells row_unset)) =
  sanitized_ids
    (render (mkAIModel (lit "llama-31") (lit "B") (lit "") (lit "Stopped")
               (lit "chat") true) true (cells row_unset)).
Proof.
  split; [reflexivity |].
  apply (sanitized_ids_collide
           (mkAIModel (lit "llama-3.1") (lit "A") (lit "") (lit "Running")
              (lit "chat") false)
           (mkAIModel (lit "llama-31") (lit "B") (lit "") (lit "Stopped")
              (lit "chat") true)
           (lit "llama-3") 46%N (lit "1") true (cells row_unset));
    reflexivity.
Defined.

(** X13: in every render the parts of the row agree with each other: the
    checkbox is enabled exactly when the model status is the string
    'Running', which is exactly when the status icon is the success check
    mark; the name carries the resource tooltip exactly when the MaaS label
    is absent; and the max-tokens field is shown exactly when the row is
    selected, whatever the model status, with the form group and the input
    sharing one id and one validation status and showing the state cells. *)
Theorem render_coherent model isChecked st :
  let v := render model isChecked st in
  (checkbox_isDisabled (view_checkbox v) = false <->
   status model = lit "Running") /\
  (checkbox_isDisabled (view_checkbox v) = false <->
   view_statusIcon v = IconSuccess /\ view_statusGlyph v = CheckCircleIcon) /\
  (checkbox_isDisabled (view_checkbox v) = true <->
   view_statusIcon v = IconDanger /\
   view_statusGlyph v = ExclamationCircleIcon) /\
  (view_maasLabel v = false <->
   view_title v = ResourceNameTooltip (display_name model)) /\
  (view_maasLabel v = true <-> view_title v = BareName (display_name model)) /\
  (isChecked = false <-> view_maxTokens v = None) /\
  (forall f, view_maxTokens v = Some f ->
     isChecked = true /\
     group_fieldId f = input_id f /\
     group_validated f = input_validated f /\
     input_validated f = maxTokensValidated st /\
     group_helperText f = maxTokensHelperText st /\
     input_value f = maxTokensValue st).
Proof.
  intros v. subst v. unfold render.
  cbn [view_checkbox checkbox_isDisabled view_statusIcon view_statusGlyph
       view_maasLabel view_title view_maxTokens].
  pose proof (str_eqb_eq (status model) (lit "Running")) as Hrun.
  destruct (str_eqb (status model) (lit "Running")) eqn:E;
    destruct (isMaaSModel model); destruct isChecked; cbn [negb];
    repeat split; try tauto; try congruence; try discriminate;
    try (intros; apply Hrun; reflexivity);
    try (intros H; apply Hrun in H; discriminate);
    try (intros [? ?]; discriminate);
    try (intros [? ?]; discriminate);
    match goal with
    | H : Some _ = Some ?f |- _ => injection H as <-; reflexivity
    end.
Qed.

Lemma render_coherent_witness :
  checkbox_isDisabled
    (view_checkbox
       (render (mkAIModel (lit "m") (lit "M") (lit "") (lit "Pending")
                  (lit "chat") false) true (cells row_synced_8192))) = true /\
  view_statusIcon
    (render (mkAIModel (lit "m") (lit "M") (lit "") (lit "Pending")
               (lit "chat") false) true (cells row_synced_8192))
  = IconDanger /\
  view_statusGlyph
    (render (mkAIModel (lit "m") (lit "M") (lit "") (lit "Pending")
               (lit "chat") false) true (cells row_synced_8192))
  = ExclamationCircleIcon.
Proof.
  split; [reflexivity |].
  apply (proj1 (proj1 (proj2 (proj2 (render_coherent
           (mkAIModel (lit "m") (lit "M") (lit "") (lit "Pending")
              (lit "chat") false) true (cells row_synced_8192)))))).
  reflexivity.
Defined.


